(** * with-barcode-scanner/App.tsx: the camera screen as a state machine

    The [App] component keeps seven pieces of React state, changes them in
    event handlers, and picks one of three views from them.  This file embeds
    the state, the handlers and the render code, and proves the properties
    the specification states about them.

    Modelling conventions.
    - A handler is a closure created by a render: it reads the state values of
      that render (its argument [c]) and queues [setState] updates, which React
      applies in order to the current state.  Handlers are therefore functions
      from the closure's snapshot to an action on the state.
    - Events are handled one at a time and the component re-renders between two
      events, so the closure that handles an event is the one of the current
      state ([step]).
    - Calls made on the camera ref and on the console are collected as the
      output of an action.  An [await] splits a handler in two: the part up to
      the call, and the part that resumes when the promise settles.
    - [null] and [undefined] are both [None].
    - The camera ref holds the camera while the camera view is mounted
      (line 135) and is empty otherwise; a handler reads it when it runs, so
      a call written [ref.current?.m()] is made only with the camera view on
      screen ([refCurrent]). *)

From Stdlib Require Import Bool List String Arith.
Import ListNotations.
Open Scope string_scope.
Open Scope bool_scope.

(** ** Data *)

(** [CameraMode] and [CameraType] of expo-camera, restricted to the values
    the component uses. *)
Inductive CameraMode : Type := picture | video.
Inductive CameraType : Type := back | front.

(** The two fields of [BarcodeScanningResult] that the component reads. *)
Record BarcodeScanningResult : Type := mkBarcode {
  type : string;
  data : string
}.

(** What [takePictureAsync] resolves to; only [uri] is read. *)
Record CameraCapturedPicture : Type := mkPhoto {
  photo_uri : string
}.

(** The [useState] cells of [App] (lines 19-25). *)
Record AppState : Type := mkState {
  uri : option string;
  mode : CameraMode;
  facing : CameraType;
  recording : bool;
  isBarcodeScanning : bool;
  barcodeData : option BarcodeScanningResult;
  scanningPaused : bool
}.

(** Calls that leave the component: methods of the camera ref
    ([ref.current?.m()]) and [console.log]. *)
Inductive Call : Type :=
| takePictureAsync
| recordAsync
| stopRecording
| log_barcode (scanningResult : BarcodeScanningResult)
| log_video (v : option string).

(** ** Actions: state updates and calls, in sequence *)

Definition Act : Type := AppState -> AppState * list Call.

Definition done : Act := fun s => (s, []).

Definition andThen (a b : Act) : Act :=
  fun s =>
    let (s1, o1) := a s in
    let (s2, o2) := b s1 in
    (s2, (o1 ++ o2)%list).

Infix ";;" := andThen (at level 61, right associativity).

Definition call (c : Call) : Act := fun s => (s, [c]).

(** The setters.  Those the source calls with an updater function
    ([setMode], [setFacing], [setIsBarcodeScanning]) take a function; a plain
    value is passed as a constant function. *)
Definition setUri (v : option string) : Act :=
  fun s => (mkState v (mode s) (facing s) (recording s)
                    (isBarcodeScanning s) (barcodeData s) (scanningPaused s), []).

Definition setMode (f : CameraMode -> CameraMode) : Act :=
  fun s => (mkState (uri s) (f (mode s)) (facing s) (recording s)
                    (isBarcodeScanning s) (barcodeData s) (scanningPaused s), []).

Definition setFacing (f : CameraType -> CameraType) : Act :=
  fun s => (mkState (uri s) (mode s) (f (facing s)) (recording s)
                    (isBarcodeScanning s) (barcodeData s) (scanningPaused s), []).

Definition setRecording (v : bool) : Act :=
  fun s => (mkState (uri s) (mode s) (facing s) v
                    (isBarcodeScanning s) (barcodeData s) (scanningPaused s), []).

Definition setIsBarcodeScanning (f : bool -> bool) : Act :=
  fun s => (mkState (uri s) (mode s) (facing s) (recording s)
                    (f (isBarcodeScanning s)) (barcodeData s) (scanningPaused s), []).

Definition setBarcodeData (v : option BarcodeScanningResult) : Act :=
  fun s => (mkState (uri s) (mode s) (facing s) (recording s)
                    (isBarcodeScanning s) v (scanningPaused s), []).

Definition setScanningPaused (v : bool) : Act :=
  fun s => (mkState (uri s) (mode s) (facing s) (recording s)
                    (isBarcodeScanning s) (barcodeData s) v, []).

(** ** Mounting *)

(** The initial values given to [useState] (lines 19-25). *)
Definition initialState : AppState :=
  mkState None picture back false false None false.

(** The effect with the empty dependency list (lines 28-30): it runs once,
    after the first render, whatever the permission is. *)
Definition mountEffect : Act := setIsBarcodeScanning (fun _ => true).

Definition mounted : AppState := fst (mountEffect initialState).

(** ** Handlers (lines 47-93) *)

(** In the two handlers that use the camera, [ref] tells whether
    [ref.current] holds a camera.  With an empty ref the optional chaining
    makes no call and yields [undefined], and the [await] of it resumes the
    handler at once. *)

(** [takePicture], after the [await]: [setUri(photo?.uri)].  [photo] is
    [None] when the ref was empty or the camera resolved to nothing. *)
Definition takePicture_resume (photo : option CameraCapturedPicture) : Act :=
  setUri (option_map photo_uri photo).

(** [takePicture], up to the [await] (line 48). *)
Definition takePicture (ref : bool) (c : AppState) : Act :=
  if ref then call takePictureAsync else takePicture_resume None.

(** [recordVideo], after the [await]: [console.log({ video })]. *)
Definition recordVideo_resume (v : option string) : Act := call (log_video v).

(** [recordVideo], up to the [await] (lines 53-59). *)
Definition recordVideo (ref : bool) (c : AppState) : Act :=
  if recording c then
    setRecording false ;; (if ref then call stopRecording else done)
  else
    setRecording true ;; (if ref then call recordAsync else recordVideo_resume None).

Definition toggleMode (c : AppState) : Act :=
  setMode (fun prev => match prev with picture => video | video => picture end) ;;
  if isBarcodeScanning c then
    setIsBarcodeScanning (fun _ => false) ;; setBarcodeData None
  else done.

Definition toggleFacing (c : AppState) : Act :=
  setFacing (fun prev => match prev with back => front | front => back end).

Definition toggleBarcodeScanning (c : AppState) : Act :=
  setIsBarcodeScanning (fun prev => negb prev) ;;
  setBarcodeData None ;;
  setScanningPaused false.

Definition handleBarCodeScanned (c : AppState)
    (scanningResult : BarcodeScanningResult) : Act :=
  if scanningPaused c then done
  else
    call (log_barcode scanningResult) ;;
    setBarcodeData (Some scanningResult) ;;
    setScanningPaused true.

Definition scanAgain (c : AppState) : Act :=
  setBarcodeData None ;; setScanningPaused false.

(** The button of the picture view (line 103): [() => setUri(null)]. *)
Definition takeAnother (c : AppState) : Act := setUri None.

(** ** Rendering (lines 95-207) *)

(** JavaScript truthiness of a [string | null]: the empty string is falsy. *)
Definition truthy (v : option string) : bool :=
  match v with
  | Some u => negb (u =? EmptyString)
  | None => false
  end.

(** [v || e] with [e] the empty string. *)
Definition orEmpty (v : option string) : string :=
  match v with
  | Some u => if truthy v then u else EmptyString
  | None => EmptyString
  end.

(** The relabelling inside [renderBarcodeResult] (lines 113-116); [prefix p d]
    is [d.startsWith(p)]. *)
Definition labelFor (barcodeType formattedData : string) : string :=
  if (barcodeType =? "ean13")
     && (prefix "978" formattedData || prefix "979" formattedData)
  then "ISBN (EAN-13)"
  else barcodeType.

(** Which handler the shutter is bound to (line 156). *)
Inductive ShutterAction : Type := shutterTakePicture | shutterRecordVideo.

(** The parts of the camera view that depend on the state (lines 133-199);
    the three buttons for mode, scanning and facing are always there. *)
Record CameraProps : Type := mkCamera {
  cam_mode : CameraMode;
  cam_facing : CameraType;
  onBarcodeScanned : bool;
  shutter : option ShutterAction;
  scanOverlay : bool
}.

Inductive Rendered : Type :=
| PictureView (source : option string)
| BarcodeResultView (typeText dataText : string)
| CameraView (props : CameraProps).

Definition renderPicture (s : AppState) : Rendered := PictureView (uri s).

Definition renderBarcodeResult (s : AppState) : Rendered :=
  let formattedData := orEmpty (option_map data (barcodeData s)) in
  let barcodeType := orEmpty (option_map type (barcodeData s)) in
  BarcodeResultView (labelFor barcodeType formattedData) formattedData.

Definition renderCamera (s : AppState) : Rendered :=
  CameraView
    (mkCamera (mode s) (facing s)
       (isBarcodeScanning s && negb (scanningPaused s))
       (if negb (isBarcodeScanning s)
        then Some (match mode s with
                   | picture => shutterTakePicture
                   | video => shutterRecordVideo
                   end)
        else None)
       (isBarcodeScanning s
        && match barcodeData s with Some _ => false | None => true end)).

(** The returned tree (lines 203-207). *)
Definition render (s : AppState) : Rendered :=
  if truthy (uri s) then renderPicture s
  else match barcodeData s with
       | Some _ => renderBarcodeResult s
       | None => renderCamera s
       end.

(** What [App] returns, with the two permission guards in front
    (lines 32-45).  [permission] is [None] while the hook has not answered,
    and [Some granted] afterwards. *)
Inductive Output : Type :=
| OutNull
| OutGrantPermission
| OutScreen (r : Rendered).

Definition App (permission : option bool) (s : AppState) : Output :=
  match permission with
  | None => OutNull
  | Some false => OutGrantPermission
  | Some true => OutScreen (render s)
  end.

(** The three views, without their contents. *)
Inductive Screen : Type := PhotoPreview | BarcodeResult | LiveCamera.

Definition screen (s : AppState) : Screen :=
  match render s with
  | PictureView _ => PhotoPreview
  | BarcodeResultView _ _ => BarcodeResult
  | CameraView _ => LiveCamera
  end.

(** ** Events *)

Inductive Event : Type :=
| PressMode                                          (* line 148 *)
| PressShutter                                       (* line 156 *)
| PressBarcode                                       (* line 178 *)
| PressFacing                                        (* line 185 *)
| BarcodeScanned (scanningResult : BarcodeScanningResult)   (* line 139 *)
| PressScanAgain                                     (* line 124 *)
| PressTakeAnother                                   (* line 103 *)
| PictureSettled (photo : option CameraCapturedPicture)     (* lines 48-49 *)
| VideoSettled (v : option string).                  (* lines 59-60 *)

(** [ref.current] in a state: the camera view attaches the camera to the ref
    while it is mounted (line 135), and the ref is empty while another view
    is on screen. *)
Definition refCurrent (s : AppState) : bool :=
  match render s with
  | CameraView _ => true
  | _ => false
  end.

(** The handler an event runs, with the closure [c] it was created in and the
    content [ref] of the camera ref when it runs.  The shutter runs
    [takePicture] or [recordVideo] according to the mode of that render
    (line 156). *)
Definition handler (ref : bool) (c : AppState) (e : Event) : Act :=
  match e with
  | PressMode => toggleMode c
  | PressShutter =>
      match mode c with
      | picture => takePicture ref c
      | video => recordVideo ref c
      end
  | PressBarcode => toggleBarcodeScanning c
  | PressFacing => toggleFacing c
  | BarcodeScanned r => handleBarCodeScanned c r
  | PressScanAgain => scanAgain c
  | PressTakeAnother => takeAnother c
  | PictureSettled photo => takePicture_resume photo
  | VideoSettled v => recordVideo_resume v
  end.

(** One event: the handler of the current render, run on the current state
    with the ref as the current screen leaves it. *)
Definition step (s : AppState) (e : Event) : AppState * list Call :=
  handler (refCurrent s) s e s.

Definition next (s : AppState) (e : Event) : AppState := fst (step s e).

Definition calls (s : AppState) (e : Event) : list Call := snd (step s e).

(** A sequence of events, in any order. *)
Definition exec (s : AppState) (evs : list Event) : AppState :=
  fold_left next evs s.

(** ** Which events can arrive *)

(** The decode callback is passed to the camera only while scanning is on
    and not paused (line 139); nothing else is restricted. *)
Definition delivered (s : AppState) (e : Event) : bool :=
  match e with
  | BarcodeScanned _ => isBarcodeScanning s && negb (scanningPaused s)
  | _ => true
  end.

(** What the rendered view offers: the camera with its buttons and its
    decode callback exists only in the camera view, the shutter only while
    scanning is off (line 155), and each of the two other views has one
    button.  Promises may settle at any time, which allows more than the
    program does (a promise settles only after its call). *)
Definition offered (s : AppState) (e : Event) : bool :=
  match e, render s with
  | PressMode, CameraView _ => true
  | PressBarcode, CameraView _ => true
  | PressFacing, CameraView _ => true
  | PressShutter, CameraView p =>
      match shutter p with Some _ => true | None => false end
  | BarcodeScanned _, CameraView p => onBarcodeScanned p
  | PressScanAgain, BarcodeResultView _ _ => true
  | PressTakeAnother, PictureView _ => true
  | PictureSettled _, _ => true
  | VideoSettled _, _ => true
  | _, _ => false
  end.

Definition anyOrder (s : AppState) (e : Event) : bool := true.

Section Reachability.

Variable allowed : AppState -> Event -> bool.

(** The states the mounted component can be in when only [allowed] events
    arrive. *)
Inductive reachable_under : AppState -> Prop :=
| reach_mounted : reachable_under mounted
| reach_step s e :
    reachable_under s -> allowed s e = true -> reachable_under (next s e).

(** The same, run on a list: [None] when an event is not allowed. *)
Fixpoint run (s : AppState) (evs : list Event) : option AppState :=
  match evs with
  | [] => Some s
  | e :: evs' => if allowed s e then run (next s e) evs' else None
  end.

End Reachability.

(** Operations in any order, decode events as the camera delivers them. *)
Definition reachable : AppState -> Prop := reachable_under delivered.

(** Events as the rendered view offers them. *)
Definition reachable_in_view : AppState -> Prop := reachable_under offered.

(** [n] presses of the mode button in a row. *)
Fixpoint toggleModes (n : nat) (s : AppState) : AppState :=
  match n with
  | O => s
  | S n' => toggleModes n' (next s PressMode)
  end.

(** [n] presses of the shutter in a row, with the calls they make. *)
Fixpoint pressShutters (n : nat) (s : AppState) : AppState * list Call :=
  match n with
  | O => (s, [])
  | S n' =>
      let (s1, o1) := step s PressShutter in
      let (s2, o2) := pressShutters n' s1 in
      (s2, (o1 ++ o2)%list)
  end.

(** ** Notions used to state the properties *)

(** [d.startsWith(p)], stated without the program's test. *)
Definition startsWith (p d : string) : Prop := exists rest, d = p ++ rest.

(** The calls of [n] shutter presses that start from [recording = rec]. *)
Fixpoint alternating (rec : bool) (n : nat) : list Call :=
  match n with
  | O => []
  | S n' => (if rec then stopRecording else recordAsync)
            :: alternating (negb rec) n'
  end.

(** The calls that reach the camera, as opposed to the console. *)
Definition isCameraCall (c : Call) : bool :=
  match c with
  | takePictureAsync | recordAsync | stopRecording => true
  | log_barcode _ | log_video _ => false
  end.

(** The buttons that lead back to the camera view: the one of the picture
    view when a picture is shown (line 103), then the one of the barcode view
    when a barcode is held (lines 123-126). *)
Definition dismissals (s : AppState) : list Event :=
  ((if truthy (uri s) then [PressTakeAnother] else [])
   ++ match barcodeData s with
      | Some _ => [PressScanAgain]
      | None => []
      end)%list.

(** Two decode events that reach the camera's callback before the component
    renders again: both calls run the closure [c] that the camera was given
    (line 139), the second on the state the first has left. *)
Definition scannedTwice (c : AppState) (r1 r2 : BarcodeScanningResult) : Act :=
  handleBarCodeScanned c r1 ;; handleBarCodeScanned c r2.

(** ** Sample inputs *)

Definition qr_hello : BarcodeScanningResult := mkBarcode "qr" "hello".

Definition isbn_book : BarcodeScanningResult :=
  mkBarcode "ean13" "9781234567897".



(** A barcode is decoded right after mounting. *)
Definition scanned : AppState := next mounted (BarcodeScanned qr_hello).

(** A barcode is decoded, then the mode button runs. *)
Definition scan_then_mode : list Event := [BarcodeScanned qr_hello; PressMode].

(** Scanning off, video mode. *)
Definition to_video : list Event := [PressBarcode; PressMode].

(** Scanning off, video mode, recording started, mode button. *)
Definition record_then_mode : list Event :=
  [PressBarcode; PressMode; PressShutter; PressMode].

(** Scanning off, shutter in picture mode, and the camera resolves to a
    picture whose [uri] is the empty string. *)
Definition empty_picture : list Event :=
  [PressBarcode; PressShutter; PictureSettled (Some (mkPhoto EmptyString))].

(** Scanning off, mode to video, scanning on again, a barcode is decoded. *)
Definition scan_in_video : list Event :=
  [PressBarcode; PressMode; PressBarcode; BarcodeScanned qr_hello].

(** Scanning off, then the decode handler called all the same. *)
Definition scan_while_off : list Event := [PressBarcode; BarcodeScanned qr_hello].

(** Scanning off: the shutter is on screen, in picture mode. *)
Definition scanning_off : AppState := next mounted PressBarcode.

(** A picture is on screen while a barcode is held. *)
Definition picture_over_barcode : AppState :=
  exec scanned [PictureSettled (Some (mkPhoto "file:///photo.jpg"))].

(** Scanning off, the shutter asks for a picture, scanning on again, and a
    barcode is decoded before the picture arrives. *)
Definition scan_before_picture : list Event :=
  [PressBarcode; PressShutter; PressBarcode; BarcodeScanned qr_hello].

(** ** Proof tools *)

Ltac unfold_act :=
  unfold takePicture, takePicture_resume, recordVideo, recordVideo_resume,
    toggleMode, toggleFacing, toggleBarcodeScanning, handleBarCodeScanned,
    scanAgain, takeAnother, mountEffect,
    andThen, done, call, setUri, setMode, setFacing, setRecording,
    setIsBarcodeScanning, setBarcodeData, setScanningPaused in *.

Ltac unfold_step := unfold exec, next, calls, step, handler in *.

(** Runs the handlers of the goal on a state taken apart into its cells. *)
Ltac run_handlers := unfold_step; unfold_act; simpl in *.

Ltac split_state s :=
  destruct s as [u m f rec scanning barcode paused]; simpl in *.

(** Whether the camera is mounted is left folded while handlers run. *)
Arguments refCurrent : simpl never.

Create HintDb app.
#[local] Hint Constructors reachable_under : app.

(** ** Reachability *)

Lemma run_reachable allowed s evs s' :
  reachable_under allowed s -> run allowed s evs = Some s' ->
  reachable_under allowed s'.
Proof.
  revert s; induction evs as [|e evs IH]; simpl; intros s Hs Hrun.
  - injection Hrun as <-. exact Hs.
  - destruct (allowed s e) eqn:Ha; [|discriminate].
    apply (IH (next s e)); [apply reach_step; assumption | exact Hrun].
Qed.

(** ** The handlers, event by event *)

Lemma next_PressMode s :
  next s PressMode =
  mkState (uri s)
          (match mode s with picture => video | video => picture end)
          (facing s) (recording s)
          false
          (if isBarcodeScanning s then None else barcodeData s)
          (scanningPaused s).
Proof. split_state s. run_handlers. destruct scanning; reflexivity. Qed.

Lemma next_PressBarcode s :
  next s PressBarcode =
  mkState (uri s) (mode s) (facing s) (recording s)
          (negb (isBarcodeScanning s)) None false.
Proof. reflexivity. Qed.

Lemma next_PressScanAgain s :
  next s PressScanAgain =
  mkState (uri s) (mode s) (facing s) (recording s)
          (isBarcodeScanning s) None false.
Proof. reflexivity. Qed.

Lemma next_BarcodeScanned s r :
  next s (BarcodeScanned r) =
  if scanningPaused s then s
  else mkState (uri s) (mode s) (facing s) (recording s)
               (isBarcodeScanning s) (Some r) true.
Proof. split_state s. run_handlers. destruct paused; reflexivity. Qed.

(** Whether the camera is mounted depends on [uri] and [barcodeData]
    alone. *)
Lemma refCurrent_eq s t :
  uri s = uri t -> barcodeData s = barcodeData t -> refCurrent s = refCurrent t.
Proof.
  unfold refCurrent, render. intros -> ->.
  destruct (truthy (uri t)); [reflexivity|].
  destruct (barcodeData t); reflexivity.
Qed.

(** The shutter is offered only with the camera on screen. *)
Lemma offered_shutter_mounted s :
  offered s PressShutter = true ->
  refCurrent s = true /\ isBarcodeScanning s = false.
Proof.
  unfold offered, refCurrent, render, renderCamera.
  destruct (truthy (uri s)); [discriminate|].
  destruct (barcodeData s); [discriminate|]. simpl.
  destruct (isBarcodeScanning s); [discriminate | auto].
Qed.

(** The shutter in video mode: the state for every state, the call with the
    camera mounted. *)
Lemma next_PressShutter_video s :
  mode s = video ->
  next s PressShutter =
  mkState (uri s) video (facing s) (negb (recording s))
          (isBarcodeScanning s) (barcodeData s) (scanningPaused s).
Proof.
  split_state s. intros ->. run_handlers.
  destruct rec; destruct (refCurrent _); reflexivity.
Qed.

Lemma calls_PressShutter_video s :
  mode s = video ->
  calls s PressShutter =
  if refCurrent s
  then [if recording s then stopRecording else recordAsync]
  else if recording s then [] else [log_video None].
Proof.
  split_state s. intros ->. run_handlers.
  destruct rec; destruct (refCurrent _); reflexivity.
Qed.

Lemma step_PressShutter_video s :
  mode s = video -> refCurrent s = true ->
  step s PressShutter =
  (mkState (uri s) video (facing s) (negb (recording s))
           (isBarcodeScanning s) (barcodeData s) (scanningPaused s),
   [if recording s then stopRecording else recordAsync]).
Proof.
  intros Hv Hr.
  pose proof (next_PressShutter_video s Hv) as Hn.
  pose proof (calls_PressShutter_video s Hv) as Hc.
  rewrite Hr in Hc. unfold next, calls in *.
  destruct (step s PressShutter) as [s1 o1]. simpl in *. congruence.
Qed.

(** The shutter in picture mode: a request with the camera mounted, and
    [setUri(undefined)] without it. *)
Lemma step_PressShutter_picture s :
  mode s = picture ->
  step s PressShutter =
  if refCurrent s then (s, [takePictureAsync])
  else (mkState None picture (facing s) (recording s)
                (isBarcodeScanning s) (barcodeData s) (scanningPaused s), []).
Proof.
  split_state s. intros ->. run_handlers.
  destruct (refCurrent _); reflexivity.
Qed.

(** Only three events touch [scanningPaused]. *)
Lemma paused_kept s e :
  (forall r, e <> BarcodeScanned r) -> e <> PressBarcode -> e <> PressScanAgain ->
  scanningPaused (next s e) = scanningPaused s.
Proof.
  intros Hscan Hbar Hagain. split_state s.
  destruct e; run_handlers; try reflexivity; try congruence.
  - destruct scanning; reflexivity.
  - destruct m; [|destruct rec]; destruct (refCurrent _); reflexivity.
Qed.

(** ** Invariants *)

(** A decoded barcode is only ever held while scanning is on, as long as
    decode events arrive through the callback of line 139. *)
Lemma scanning_while_barcode s :
  reachable s -> barcodeData s <> None -> isBarcodeScanning s = true.
Proof.
  induction 1 as [|s e Hs IH Hallowed]; [intros H; exfalso; apply H; reflexivity|].
  split_state s. destruct e; run_handlers; try exact IH; try congruence.
  - destruct scanning; simpl; [congruence | exact IH].
  - destruct m; [|destruct rec]; destruct (refCurrent _); exact IH.
  - destruct paused; simpl; [exact IH|].
    intros _. apply andb_prop in Hallowed. tauto.
Qed.

(** What the view offers is delivered. *)
Lemma offered_delivered s e : offered s e = true -> delivered s e = true.
Proof.
  destruct e; try reflexivity. unfold offered, delivered, render.
  destruct (truthy (uri s)); [discriminate|].
  destruct (barcodeData s); [discriminate|]. simpl. trivial.
Qed.

Lemma reachable_under_mono (a b : AppState -> Event -> bool) :
  (forall s e, a s e = true -> b s e = true) ->
  forall s, reachable_under a s -> reachable_under b s.
Proof. intros Hab s; induction 1; eauto with app. Qed.

Lemma reachable_in_view_reachable s : reachable_in_view s -> reachable s.
Proof. apply reachable_under_mono, offered_delivered. Qed.

(** The buttons and the callback of the camera exist only in the camera
    view, which shows no barcode. *)
Lemma camera_event_no_barcode s e :
  offered s e = true ->
  e = PressMode \/ e = PressBarcode \/ e = PressFacing \/ e = PressShutter
  \/ (exists r, e = BarcodeScanned r) ->
  barcodeData s = None.
Proof.
  unfold offered, render. intros Ho He.
  destruct (truthy (uri s)), (barcodeData s); try reflexivity;
    destruct He as [->|[->|[->|[->|[r ->]]]]]; discriminate.
Qed.

(** Once scanning is off and no barcode is held, the mode button changes
    neither. *)
Lemma toggleModes_stay_off n :
  forall s,
    isBarcodeScanning s = false -> barcodeData s = None ->
    isBarcodeScanning (toggleModes n s) = false
    /\ barcodeData (toggleModes n s) = None.
Proof.
  induction n as [|n IH]; intros s Hoff Hnone; simpl; [split; assumption|].
  apply IH; rewrite next_PressMode; simpl; [reflexivity|].
  rewrite Hoff. exact Hnone.
Qed.

(** ** C1: the mode button and scanning *)

(** C1.  In every reachable state, after each of any number of successive
    calls of [toggleMode], [isBarcodeScanning] is false and [barcodeData] is
    null, whether scanning was on before the call or not.  The handler resets
    the two only when [isBarcodeScanning] is true; when it is false no barcode
    is held in a reachable state, so the result is the same. *)
Theorem toggleMode_leaves_scanning_off (s : AppState) (n : nat) :
  reachable s ->
  isBarcodeScanning (toggleModes (S n) s) = false
  /\ barcodeData (toggleModes (S n) s) = None.
Proof.
  intros Hs. simpl. apply toggleModes_stay_off.
  - rewrite next_PressMode. reflexivity.
  - rewrite next_PressMode. simpl.
    destruct (isBarcodeScanning s) eqn:Hscanning; [reflexivity|].
    destruct (barcodeData s) eqn:Hbarcode; [|reflexivity].
    assert (isBarcodeScanning s = true) as Hon
      by (apply scanning_while_barcode; [exact Hs | congruence]).
    congruence.
Qed.

Lemma toggleMode_leaves_scanning_off_witness :
  barcodeData scanned = Some qr_hello
  /\ isBarcodeScanning (toggleModes 3 scanned) = false
  /\ barcodeData (toggleModes 3 scanned) = None.
Proof.
  split; [reflexivity|].
  apply (toggleMode_leaves_scanning_off scanned 2).
  apply reach_step; [apply reach_mounted | reflexivity].
Defined.

(** The reset inside [toggleMode] is guarded: on a state that holds a barcode
    while scanning is off (no such state is reachable) the barcode stays. *)
Remark toggleMode_reset_is_guarded :
  barcodeData
    (next (mkState None picture back false false (Some qr_hello) true) PressMode)
  = Some qr_hello.
Proof. reflexivity. Qed.

(** ** C2: a paused scan and its barcode *)

(** C2, as stated, fails: a decode event followed by the mode button leaves
    [scanningPaused] true with no barcode, because [toggleMode] clears
    [barcodeData] and leaves [scanningPaused] alone. *)
Lemma paused_without_barcode :
  reachable (exec mounted scan_then_mode)
  /\ scanningPaused (exec mounted scan_then_mode) = true
  /\ barcodeData (exec mounted scan_then_mode) = None.
Proof.
  split; [|split; reflexivity].
  apply (run_reachable delivered mounted scan_then_mode);
    [apply reach_mounted | reflexivity].
Qed.

(** C2, amended.  In every state reached through the events the rendered
    view offers (the mode, scanning, facing and shutter buttons and the decode
    callback only in the camera view, the scan-again button only in the
    barcode view), [scanningPaused] true implies that a barcode is held. *)
Theorem paused_implies_barcode (s : AppState) :
  reachable_in_view s -> scanningPaused s = true -> barcodeData s <> None.
Proof.
  revert s.
  induction 1 as [|s e Hs IH Hoffered]; [discriminate|].
  destruct e.
  - rewrite next_PressMode; simpl. intros Hp.
    pose proof (camera_event_no_barcode s PressMode Hoffered) as Hnone.
    exfalso. apply (IH Hp). apply Hnone. auto.
  - rewrite paused_kept; try congruence. intros Hp.
    pose proof (camera_event_no_barcode s PressShutter Hoffered) as Hnone.
    exfalso. apply (IH Hp). apply Hnone. auto 6.
  - rewrite next_PressBarcode; simpl. discriminate.
  - rewrite paused_kept; try congruence. intros Hp.
    pose proof (camera_event_no_barcode s PressFacing Hoffered) as Hnone.
    exfalso. apply (IH Hp). apply Hnone. auto 6.
  - rewrite next_BarcodeScanned.
    destruct (scanningPaused s) eqn:Hp; [intros _; exact (IH eq_refl)|].
    simpl. discriminate.
  - rewrite next_PressScanAgain; simpl. discriminate.
  - split_state s. run_handlers. exact IH.
  - split_state s. run_handlers. exact IH.
  - split_state s. run_handlers. exact IH.
Qed.

Lemma paused_implies_barcode_witness : barcodeData scanned <> None.
Proof.
  apply (paused_implies_barcode scanned).
  - apply reach_step; [apply reach_mounted | reflexivity].
  - reflexivity.
Defined.

(** ** C3: recording and the mode *)

(** C3, as stated, fails, and with the events of the view alone: scanning
    off, mode to video, shutter (recording starts), mode back to picture.
    [toggleMode] does not look at [recording]. *)
Lemma recording_in_picture_mode :
  reachable_in_view (exec mounted record_then_mode)
  /\ recording (exec mounted record_then_mode) = true
  /\ mode (exec mounted record_then_mode) = picture.
Proof.
  split; [|split; reflexivity].
  apply (run_reachable offered mounted record_then_mode);
    [apply reach_mounted | reflexivity].
Qed.

(** C3, amended.  [recording] becomes true only through the shutter handler
    run in video mode, which leaves the mode video; it asks the camera to
    record when the camera view is mounted, as it is whenever the shutter is
    on screen, and with an empty ref it calls no camera and logs an undefined
    video.  [toggleMode] flips the mode and leaves [recording] as it is. *)
Theorem recording_starts_in_video (s : AppState) :
  (forall e,
      recording s = false -> recording (next s e) = true ->
      e = PressShutter /\ mode s = video /\ mode (next s e) = video
      /\ calls s e = (if refCurrent s then [recordAsync] else [log_video None])
      /\ (offered s e = true -> calls s e = [recordAsync]))
  /\ recording (next s PressMode) = recording s
  /\ mode (next s PressMode)
     = match mode s with picture => video | video => picture end.
Proof.
  split; [|rewrite next_PressMode; split; reflexivity].
  intros e Hoff Hon.
  assert (e = PressShutter /\ mode s = video) as [-> Hvideo].
  { revert Hon. split_state s. subst rec.
    destruct e; run_handlers; try discriminate.
    - destruct scanning; discriminate.
    - destruct m; destruct (refCurrent _); try discriminate; auto.
    - destruct paused; discriminate. }
  pose proof (calls_PressShutter_video s Hvideo) as Hcalls.
  rewrite Hoff in Hcalls.
  repeat split; try assumption.
  - rewrite (next_PressShutter_video s Hvideo). reflexivity.
  - intros Hoffered. apply offered_shutter_mounted in Hoffered.
    destruct Hoffered as [Href _]. rewrite Href in Hcalls. exact Hcalls.
Qed.

Lemma recording_starts_in_video_witness :
  mode (exec mounted to_video) = video
  /\ calls (exec mounted to_video) PressShutter = [recordAsync].
Proof.
  destruct (proj1 (recording_starts_in_video (exec mounted to_video))
              PressShutter eq_refl eq_refl) as [_ [Hmode [_ [_ Hcalls]]]].
  split; [exact Hmode | apply Hcalls; reflexivity].
Defined.

(** ** C4: which view is rendered *)

Lemma truthy_spec v :
  truthy v = true <-> exists u, v = Some u /\ u <> EmptyString.
Proof.
  destruct v as [u|]; simpl; split.
  - intros H. exists u. split; [reflexivity|].
    apply String.eqb_neq. apply negb_true_iff. exact H.
  - intros [u' [[= <-] Hne]]. apply negb_true_iff, String.eqb_neq. exact Hne.
  - discriminate.
  - intros [u' [[=] _]].
Qed.

(** C4, as stated, fails on a state whose [uri] is the empty string: the
    render tests [uri] for truthiness, so a camera that resolves to an empty
    [uri] leaves the camera view on screen. *)
Lemma empty_uri_is_not_previewed :
  reachable_in_view (exec mounted empty_picture)
  /\ uri (exec mounted empty_picture) = Some EmptyString
  /\ screen (exec mounted empty_picture) = LiveCamera.
Proof.
  split; [|split; reflexivity].
  apply (run_reachable offered mounted empty_picture);
    [apply reach_mounted | reflexivity].
Qed.

(** C4, amended.  The view is chosen by priority: the picture view when
    [uri] is a non-empty string; otherwise the barcode view when a barcode is
    held; otherwise the camera view.  In picture mode the shutter, pressed
    where the view offers it, asks the camera for a picture and changes no
    state; and in whatever state the camera resolves to a non-empty [uri]
    [x], [uri] becomes [x] and the picture view is rendered, whether a barcode
    is held by then or not. *)
Theorem render_priority (s : AppState) :
  ((exists u, uri s = Some u /\ u <> EmptyString) ->
     screen s = PhotoPreview /\ render s = PictureView (uri s))
  /\ (~ (exists u, uri s = Some u /\ u <> EmptyString) ->
      barcodeData s <> None -> screen s = BarcodeResult)
  /\ (~ (exists u, uri s = Some u /\ u <> EmptyString) ->
      barcodeData s = None -> screen s = LiveCamera)
  /\ (offered s PressShutter = true -> mode s = picture ->
      step s PressShutter = (s, [takePictureAsync]))
  /\ (forall x, x <> EmptyString ->
      uri (next s (PictureSettled (Some (mkPhoto x)))) = Some x
      /\ barcodeData (next s (PictureSettled (Some (mkPhoto x))))
         = barcodeData s
      /\ screen (next s (PictureSettled (Some (mkPhoto x)))) = PhotoPreview).
Proof.
  unfold screen, render. split; [|split; [|split; [|split]]].
  - intros Huri. apply truthy_spec in Huri. rewrite Huri. split; reflexivity.
  - intros Hnot Hbarcode. destruct (truthy (uri s)) eqn:Ht.
    + exfalso. apply Hnot. apply truthy_spec. exact Ht.
    + destruct (barcodeData s); [reflexivity | congruence].
  - intros Hnot Hbarcode. destruct (truthy (uri s)) eqn:Ht.
    + exfalso. apply Hnot. apply truthy_spec. exact Ht.
    + rewrite Hbarcode. reflexivity.
  - intros Hoffered Hmode. apply offered_shutter_mounted in Hoffered.
    rewrite (step_PressShutter_picture s Hmode), (proj1 Hoffered).
    reflexivity.
  - intros x Hx. split_state s. run_handlers.
    apply String.eqb_neq in Hx. rewrite Hx. repeat split.
Qed.

Lemma render_priority_witness :
  step scanning_off PressShutter = (scanning_off, [takePictureAsync])
  /\ reachable_in_view (exec mounted scan_before_picture)
  /\ barcodeData (exec mounted scan_before_picture) = Some qr_hello
  /\ screen (next (exec mounted scan_before_picture)
                  (PictureSettled (Some (mkPhoto "x")))) = PhotoPreview.
Proof.
  split; [|split; [|split]].
  - apply (proj1 (proj2 (proj2 (proj2 (render_priority scanning_off)))));
      reflexivity.
  - apply (run_reachable offered mounted scan_before_picture);
      [apply reach_mounted | reflexivity].
  - reflexivity.
  - apply (proj2 (proj2 (proj2 (proj2
             (render_priority (exec mounted scan_before_picture))))) "x").
    discriminate.
Defined.

(** ** C5: two decode events in a row *)









(** ** C6: the label of a barcode type *)

Lemma prefix_startsWith p :
  forall d, prefix p d = true <-> startsWith p d.
Proof.
  unfold startsWith.
  induction p as [|a p IH]; intros d.
  - split; [intros _; exists d; reflexivity | intros _; destruct d; reflexivity].
  - destruct d as [|b d]; simpl.
    + split; [discriminate | intros [rest [=]]].
    + destruct (Ascii.ascii_dec a b) as [->|Hab].
      * rewrite IH. split; intros [rest H]; exists rest; congruence.
      * split; [discriminate | intros [rest [= Hb _]]; congruence].
Qed.

Lemma isbn_prefix_spec d :
  prefix "978" d || prefix "979" d = true
  <-> startsWith "978" d \/ startsWith "979" d.
Proof.
  rewrite orb_true_iff, !prefix_startsWith. reflexivity.
Qed.

(** C6.  [labelFor "ean13" d] is ["ISBN (EAN-13)"] exactly when [d] starts
    with 978 or 979; for every other pair [labelFor t d] is [t]; the three
    examples of the specification; and the barcode view shows this label for
    the barcode it holds. *)
Theorem labelFor_relabels_isbn :
  (forall d,
      labelFor "ean13" d = "ISBN (EAN-13)"
      <-> startsWith "978" d \/ startsWith "979" d)
  /\ (forall t d,
      ~ (t = "ean13" /\ (startsWith "978" d \/ startsWith "979" d)) ->
      labelFor t d = t)
  /\ labelFor "ean13" "9781234567897" = "ISBN (EAN-13)"
  /\ labelFor "ean13" "1234567890123" = "ean13"
  /\ labelFor "qr" "9780000000000" = "qr"
  /\ (forall s r,
      barcodeData s = Some r ->
      renderBarcodeResult s
      = BarcodeResultView (labelFor (type r) (data r)) (data r)).
Proof.
  split; [|split; [|repeat split]].
  - intros d. rewrite <- isbn_prefix_spec. unfold labelFor. simpl.
    destruct (prefix "978" d || prefix "979" d); split;
      try reflexivity; discriminate.
  - intros t d Hnot. unfold labelFor.
    destruct (t =? "ean13") eqn:Ht; [|reflexivity].
    destruct (prefix "978" d || prefix "979" d) eqn:Hd; [|reflexivity].
    exfalso. apply Hnot. split.
    + apply String.eqb_eq. exact Ht.
    + apply isbn_prefix_spec. exact Hd.
  - intros s r Hr. unfold renderBarcodeResult. rewrite Hr. simpl.
    assert (forall u, (if negb (u =? EmptyString) then u else EmptyString) = u)
      as Hor.
    { intros u. destruct (u =? EmptyString) eqn:E; [|reflexivity].
      apply String.eqb_eq in E. subst u. reflexivity. }
    rewrite !Hor. reflexivity.
Qed.

Lemma labelFor_relabels_isbn_witness :
  labelFor "code128" "9790000000000" = "code128".
Proof.
  apply (proj1 (proj2 labelFor_relabels_isbn) "code128" "9790000000000").
  intros [Ht _]. discriminate Ht.
Defined.

(** ** C7: the shutter in video mode *)

(** C7.  In video mode, with the camera view on screen as it is wherever
    the shutter is, each press of the shutter negates [recording] and makes
    one call: [recordAsync] when it was false, [stopRecording] when it was
    true.  Over [n] presses in a row the calls alternate, the mode stays video
    and nothing else changes. *)
Theorem shutter_alternates_recording (n : nat) :
  forall s : AppState,
    mode s = video ->
    refCurrent s = true ->
    step s PressShutter
    = (mkState (uri s) video (facing s) (negb (recording s))
               (isBarcodeScanning s) (barcodeData s) (scanningPaused s),
       [if recording s then stopRecording else recordAsync])
    /\ pressShutters n s
       = (mkState (uri s) video (facing s)
                  (if Nat.even n then recording s else negb (recording s))
                  (isBarcodeScanning s) (barcodeData s) (scanningPaused s),
          alternating (recording s) n).
Proof.
  induction n as [|n IH]; intros s Hvideo Href;
    (split; [apply step_PressShutter_video; assumption|]).
  - split_state s. subst m. reflexivity.
  - cbn [pressShutters alternating].
    rewrite (step_PressShutter_video s Hvideo Href).
    destruct (IH (mkState (uri s) video (facing s) (negb (recording s))
                          (isBarcodeScanning s) (barcodeData s)
                          (scanningPaused s)) eq_refl) as [_ ->];
      [rewrite <- Href; apply refCurrent_eq; reflexivity|].
    cbn [uri mode facing recording isBarcodeScanning barcodeData scanningPaused].
    rewrite Nat.even_succ, <- Nat.negb_even.
    destruct (Nat.even n), (recording s); reflexivity.
Qed.

Lemma shutter_alternates_recording_witness :
  snd (pressShutters 3 (exec mounted to_video))
  = [recordAsync; stopRecording; recordAsync].
Proof.
  rewrite (proj2 (shutter_alternates_recording 3 (exec mounted to_video)
                    eq_refl eq_refl)).
  reflexivity.
Defined.

(** ** C8: scanning again *)

(** C8.  In every state [scanAgain] clears the barcode and the pause and
    touches nothing else, and a decode event that comes next is taken: its
    result is stored and scanning is paused again. *)
Theorem scanAgain_accepts_next_scan (s : AppState) (r : BarcodeScanningResult) :
  step s PressScanAgain
  = (mkState (uri s) (mode s) (facing s) (recording s)
             (isBarcodeScanning s) None false, [])
  /\ step (next s PressScanAgain) (BarcodeScanned r)
     = (mkState (uri s) (mode s) (facing s) (recording s)
                (isBarcodeScanning s) (Some r) true, [log_barcode r])
  /\ barcodeData (exec s [PressScanAgain; BarcodeScanned r]) = Some r.
Proof. repeat split. Qed.

(** ** C9: scanning is on after mounting *)

(** C9.  [useState] starts with scanning off, and the mount effect turns it
    on with no event: the first screen after mounting is the camera view with
    the decode callback bound, the overlay shown and no shutter; the shutter
    is rendered exactly when scanning is off. *)
Theorem mount_enables_scanning :
  isBarcodeScanning initialState = false
  /\ mounted = mkState None picture back false true None false
  /\ App (Some true) mounted
     = OutScreen (CameraView (mkCamera picture back true None true))
  /\ offered mounted PressShutter = false
  /\ (forall r, offered mounted (BarcodeScanned r) = true)
  /\ (forall s,
      renderCamera s
      = CameraView
          (mkCamera (mode s) (facing s)
             (isBarcodeScanning s && negb (scanningPaused s))
             (if isBarcodeScanning s then None
              else Some (match mode s with
                         | picture => shutterTakePicture
                         | video => shutterRecordVideo
                         end))
             (isBarcodeScanning s
              && match barcodeData s with Some _ => false | None => true end))).
Proof.
  repeat split. intros s. unfold renderCamera.
  destruct (isBarcodeScanning s); reflexivity.
Qed.

(** ** C10: a barcode is held only while scanning is on *)

(** C10.  With decode events delivered only while scanning is on and not
    paused, every reachable state that holds a barcode has scanning on. *)
Theorem barcode_implies_scanning (s : AppState) :
  reachable s -> barcodeData s <> None -> isBarcodeScanning s = true.
Proof. apply scanning_while_barcode. Qed.

Lemma barcode_implies_scanning_witness :
  isBarcodeScanning (exec mounted scan_in_video) = true.
Proof.
  apply (barcode_implies_scanning (exec mounted scan_in_video)).
  - apply (run_reachable delivered mounted scan_in_video);
      [apply reach_mounted | reflexivity].
  - discriminate.
Defined.

(** The condition on decode events is needed: were the handler called while
    scanning is off, it would store the barcode all the same. *)
Remark scanned_while_off :
  reachable_under anyOrder (exec mounted scan_while_off)
  /\ barcodeData (exec mounted scan_while_off) <> None
  /\ isBarcodeScanning (exec mounted scan_while_off) = false.
Proof.
  split; [|split; [discriminate | reflexivity]].
  apply (run_reachable anyOrder mounted scan_while_off);
    [apply reach_mounted | reflexivity].
Qed.

(** * Further properties of the handlers and of the render *)

(** ** What the view keeps true *)

(** In the view, a state without a barcode is not paused: the pause is set
    together with the barcode, and the mode button, which clears the barcode
    alone, is in the camera view only. *)
Lemma no_barcode_not_paused s :
  reachable_in_view s -> barcodeData s = None -> scanningPaused s = false.
Proof.
  induction 1 as [|s e Hs IH Hoffered]; [reflexivity|].
  destruct e.
  - intros _. rewrite next_PressMode; simpl. apply IH.
    apply (camera_event_no_barcode s PressMode Hoffered). auto.
  - intros _. rewrite paused_kept; try congruence. apply IH.
    apply (camera_event_no_barcode s PressShutter Hoffered). auto 6.
  - intros _. rewrite next_PressBarcode. reflexivity.
  - intros _. rewrite paused_kept; try congruence. apply IH.
    apply (camera_event_no_barcode s PressFacing Hoffered). auto 6.
  - rewrite next_BarcodeScanned.
    assert (scanningPaused s = false) as Hp.
    { apply IH. apply (camera_event_no_barcode s _ Hoffered). eauto 8. }
    rewrite Hp. simpl. discriminate.
  - intros _. rewrite next_PressScanAgain. reflexivity.
  - split_state s. run_handlers. exact IH.
  - split_state s. run_handlers. exact IH.
  - split_state s. run_handlers. exact IH.
Qed.

(** X1.  Whatever the order of the events, a held barcode means that
    scanning is paused: [handleBarCodeScanned] is the only handler that stores
    a barcode and it sets the pause with it, and the two handlers that clear
    the pause clear the barcode too. *)
Theorem held_barcode_is_paused (s : AppState) :
  reachable_under anyOrder s -> barcodeData s <> None -> scanningPaused s = true.
Proof.
  induction 1 as [|s e Hs IH _]; [intros H; exfalso; apply H; reflexivity|].
  destruct e.
  - rewrite next_PressMode; simpl.
    destruct (isBarcodeScanning s); [congruence | exact IH].
  - rewrite paused_kept; try congruence.
    split_state s. run_handlers.
    destruct m; [|destruct rec]; destruct (refCurrent _); exact IH.
  - rewrite next_PressBarcode; simpl. congruence.
  - rewrite paused_kept; try congruence. split_state s. run_handlers. exact IH.
  - rewrite next_BarcodeScanned.
    destruct (scanningPaused s) eqn:Hp; [intros _; exact Hp | reflexivity].
  - rewrite next_PressScanAgain; simpl. congruence.
  - split_state s. run_handlers. exact IH.
  - split_state s. run_handlers. exact IH.
  - split_state s. run_handlers. exact IH.
Qed.

Lemma held_barcode_is_paused_witness :
  scanningPaused (exec mounted scan_while_off) = true.
Proof.
  apply (held_barcode_is_paused (exec mounted scan_while_off)).
  - apply (run_reachable anyOrder mounted scan_while_off);
      [apply reach_mounted | reflexivity].
  - discriminate.
Defined.

(** X2.  When the camera view is on screen in a state the view can reach,
    the decode callback is bound exactly when scanning is on, the overlay is
    shown exactly then, and the shutter is rendered exactly when scanning is
    off: the tests [!scanningPaused] (line 139) and [!barcodeData] (line 189)
    never decide. *)
Theorem camera_view_follows_scanning (s : AppState) (p : CameraProps) :
  reachable_in_view s ->
  render s = CameraView p ->
  onBarcodeScanned p = isBarcodeScanning s
  /\ scanOverlay p = isBarcodeScanning s
  /\ shutter p = (if isBarcodeScanning s then None
                  else Some (match mode s with
                             | picture => shutterTakePicture
                             | video => shutterRecordVideo
                             end))
  /\ cam_mode p = mode s
  /\ cam_facing p = facing s.
Proof.
  intros Hs. unfold render.
  destruct (truthy (uri s)); [discriminate|].
  destruct (barcodeData s) eqn:Hbarcode; [discriminate|].
  pose proof (no_barcode_not_paused s Hs Hbarcode) as Hp.
  unfold renderCamera. rewrite Hbarcode, Hp. intros [= <-]. simpl.
  destruct (isBarcodeScanning s); repeat split.
Qed.

Lemma camera_view_follows_scanning_witness :
  shutter (mkCamera picture back false (Some shutterTakePicture) false)
  = Some shutterTakePicture.
Proof.
  apply (camera_view_follows_scanning scanning_off
           (mkCamera picture back false (Some shutterTakePicture) false)).
  - apply reach_step; [apply reach_mounted | reflexivity].
  - reflexivity.
Defined.

(** X3.  Of the events the view offers, only the shutter makes a call on the
    camera, and only while scanning is off: no picture is taken and no
    recording is started or stopped while scanning is on. *)
Theorem camera_calls_need_scanning_off (s : AppState) (e : Event) (c : Call) :
  offered s e = true ->
  In c (calls s e) ->
  isCameraCall c = true ->
  e = PressShutter /\ isBarcodeScanning s = false.
Proof.
  intros Hoffered Hin Hcam. destruct e.
  - exfalso. split_state s. run_handlers.
    destruct scanning; simpl in Hin; contradiction.
  - split; [reflexivity|].
    revert Hoffered. unfold offered, render, renderCamera.
    destruct (truthy (uri s)); [discriminate|].
    destruct (barcodeData s); [discriminate|]. simpl.
    destruct (isBarcodeScanning s); [discriminate | reflexivity].
  - exfalso. split_state s. run_handlers. contradiction.
  - exfalso. split_state s. run_handlers. contradiction.
  - exfalso. split_state s. run_handlers.
    destruct paused; simpl in Hin; [contradiction|].
    destruct Hin as [<-|[]]. discriminate.
  - exfalso. split_state s. run_handlers. contradiction.
  - exfalso. split_state s. run_handlers. contradiction.
  - exfalso. split_state s. run_handlers. contradiction.
  - exfalso. split_state s. run_handlers.
    destruct Hin as [<-|[]]. discriminate.
Qed.

Lemma camera_calls_need_scanning_off_witness :
  PressShutter = PressShutter /\ isBarcodeScanning scanning_off = false.
Proof.
  apply (camera_calls_need_scanning_off scanning_off PressShutter
           takePictureAsync).
  - reflexivity.
  - left. reflexivity.
  - reflexivity.
Defined.

(** ** Which handler writes which cell *)

(** X4.  [recording] changes only when the shutter handler runs in video
    mode, and the change is a negation.  With the camera mounted, as it is
    wherever the view offers the shutter, it comes with one call,
    [recordAsync] to start and [stopRecording] to stop; with an empty ref no
    camera is called: stopping calls nothing and starting logs an undefined
    video.  In picture mode nothing stops a recording. *)
Theorem recording_changes_by_video_shutter (s : AppState) (e : Event) :
  recording (next s e) <> recording s ->
  e = PressShutter
  /\ mode s = video
  /\ recording (next s e) = negb (recording s)
  /\ calls s e
     = (if refCurrent s
        then [if recording s then stopRecording else recordAsync]
        else if recording s then [] else [log_video None])
  /\ (offered s e = true ->
      calls s e = [if recording s then stopRecording else recordAsync]).
Proof.
  intros Hchange.
  assert (e = PressShutter /\ mode s = video) as [-> Hvideo].
  { revert Hchange. split_state s.
    destruct e; run_handlers; try congruence.
    - destruct scanning; simpl; congruence.
    - destruct m; destruct (refCurrent _); simpl; try congruence; auto.
    - destruct paused; simpl; congruence. }
  pose proof (calls_PressShutter_video s Hvideo) as Hcalls.
  repeat split; try assumption.
  - rewrite (next_PressShutter_video s Hvideo). reflexivity.
  - intros Hoffered. apply offered_shutter_mounted in Hoffered.
    destruct Hoffered as [Href _]. rewrite Href in Hcalls. exact Hcalls.
Qed.

Lemma recording_changes_by_video_shutter_witness :
  calls (exec mounted to_video) PressShutter = [recordAsync].
Proof.
  destruct (recording_changes_by_video_shutter (exec mounted to_video)
              PressShutter) as [_ [_ [_ [_ Hcalls]]]].
  - discriminate.
  - apply Hcalls. reflexivity.
Defined.

(** X5.  [uri] is written only by the settled picture, by the button of the
    picture view and by [takePicture] run with an empty ref, which the view
    never offers, so that among the offered events only the first two change
    it; [mode] is written only by the mode button, [facing] only by the facing
    button, and [isBarcodeScanning] only by the mode and scanning buttons.
    No decode event changes any of the four. *)
Theorem cells_have_their_writers (s : AppState) (e : Event) :
  (uri (next s e) <> uri s ->
     e = PressTakeAnother \/ (exists photo, e = PictureSettled photo)
     \/ (e = PressShutter /\ mode s = picture /\ refCurrent s = false))
  /\ (offered s e = true -> uri (next s e) <> uri s ->
      e = PressTakeAnother \/ exists photo, e = PictureSettled photo)
  /\ (mode (next s e) <> mode s -> e = PressMode)
  /\ (facing (next s e) <> facing s -> e = PressFacing)
  /\ (isBarcodeScanning (next s e) <> isBarcodeScanning s ->
      e = PressMode \/ e = PressBarcode).
Proof.
  assert (uri (next s e) <> uri s ->
          e = PressTakeAnother \/ (exists photo, e = PictureSettled photo)
          \/ (e = PressShutter /\ mode s = picture /\ refCurrent s = false))
    as Huri.
  { split_state s.
    destruct e; run_handlers;
      try (destruct scanning); try (destruct m; try destruct rec);
      try (destruct paused); try (destruct (refCurrent _)); simpl;
      intros; try congruence; eauto 6. }
  split; [exact Huri|]. split.
  - intros Hoffered Hchange.
    destruct (Huri Hchange) as [->|[Hsettled|[-> [_ Href]]]]; auto.
    apply offered_shutter_mounted in Hoffered. destruct Hoffered. congruence.
  - split_state s.
    destruct e; run_handlers;
      try (destruct scanning); try (destruct m; try destruct rec);
      try (destruct paused); try (destruct (refCurrent _)); simpl;
      repeat split; intros; try congruence; eauto.
Qed.

Lemma cells_have_their_writers_witness :
  PressMode = PressMode \/ PressMode = PressBarcode.
Proof.
  apply (proj2 (proj2 (proj2 (proj2
           (cells_have_their_writers mounted PressMode))))).
  discriminate.
Defined.

(** ** How the buttons compose *)

(** X6.  The facing button commutes with every event: pressed before or
    after it, the state is the same, the event makes the same calls and the
    screen is the same.  No handler reads [facing]. *)
Theorem facing_commutes (s : AppState) (e : Event) :
  next (next s e) PressFacing = next (next s PressFacing) e
  /\ calls (next s PressFacing) e = calls s e
  /\ screen (next s PressFacing) = screen s.
Proof.
  split_state s.
  destruct e; run_handlers;
    try (destruct scanning); try (destruct m; try destruct rec);
    try (destruct paused); simpl; repeat split;
    unfold screen, refCurrent, render; simpl;
    destruct (truthy u); try destruct barcode; reflexivity.
Qed.

(** X7.  The state after [n + 1] presses of the mode button in a row: the
    mode is flipped when their number is odd, scanning is off, the barcode is
    dropped if scanning was on, and the four other cells are as before. *)
Theorem toggleModes_state (n : nat) :
  forall s : AppState,
    toggleModes (S n) s
    = mkState (uri s)
              (if Nat.even n
               then match mode s with picture => video | video => picture end
               else mode s)
              (facing s) (recording s) false
              (if isBarcodeScanning s then None else barcodeData s)
              (scanningPaused s).
Proof.
  induction n as [|n IH]; intros s.
  - simpl. apply next_PressMode.
  - change (toggleModes (S (S n)) s) with (toggleModes (S n) (next s PressMode)).
    rewrite IH, next_PressMode.
    cbn [uri mode facing recording isBarcodeScanning barcodeData scanningPaused].
    rewrite Nat.even_succ, <- Nat.negb_even.
    destruct (Nat.even n), (mode s); reflexivity.
Qed.

(** X8.  In the camera view of a state the view can reach, pressing the
    scanning button twice gives the state back, and the button is still
    there after the first press. *)
Theorem scanning_button_twice (s : AppState) :
  reachable_in_view s ->
  offered s PressBarcode = true ->
  offered (next s PressBarcode) PressBarcode = true
  /\ next (next s PressBarcode) PressBarcode = s.
Proof.
  intros Hs Hoffered.
  assert (barcodeData s = None) as Hbarcode
    by (apply (camera_event_no_barcode s PressBarcode Hoffered); auto).
  pose proof (no_barcode_not_paused s Hs Hbarcode) as Hp.
  revert Hoffered. unfold offered, render.
  split_state s. subst barcode paused.
  destruct (truthy u); [discriminate|]. intros _.
  split; [reflexivity|].
  run_handlers. rewrite negb_involutive. reflexivity.
Qed.

Lemma scanning_button_twice_witness :
  offered (next mounted PressBarcode) PressBarcode = true
  /\ next (next mounted PressBarcode) PressBarcode = mounted.
Proof.
  apply (scanning_button_twice mounted); [apply reach_mounted | reflexivity].
Defined.

(** ** Leaving the picture and barcode views *)

(** X9.  From every state the buttons of [dismissals], at most two, are
    offered one after the other and end in the camera view, with the mode,
    the facing, [recording] and [isBarcodeScanning] as they were. *)
Theorem dismissals_reach_camera (s : AppState) :
  List.length (dismissals s) <= 2
  /\ exists s',
      run offered s (dismissals s) = Some s'
      /\ screen s' = LiveCamera
      /\ mode s' = mode s /\ facing s' = facing s
      /\ recording s' = recording s
      /\ isBarcodeScanning s' = isBarcodeScanning s.
Proof.
  unfold dismissals. split_state s.
  destruct (truthy u) eqn:Ht; destruct barcode as [r|];
    (split; [simpl; auto|]);
    eexists; unfold screen, offered, render; simpl; rewrite ?Ht; simpl;
    repeat split; unfold screen, render; simpl; rewrite ?Ht; reflexivity.
Qed.

(** X10.  In a state the view can reach that shows the barcode view, the
    scan-again button is offered and leads to the camera view with the decode
    callback bound, the overlay shown and no shutter: scanning resumes. *)
Theorem scanAgain_resumes_scanning (s : AppState) :
  reachable_in_view s ->
  screen s = BarcodeResult ->
  offered s PressScanAgain = true
  /\ render (next s PressScanAgain)
     = CameraView (mkCamera (mode s) (facing s) true None true).
Proof.
  intros Hs. pose proof (scanning_while_barcode s
                           (reachable_in_view_reachable s Hs)) as Hon.
  unfold screen, offered, render. rewrite next_PressScanAgain. simpl.
  destruct (truthy (uri s)); [discriminate|].
  destruct (barcodeData s) as [r|]; [|discriminate].
  intros _. rewrite Hon by discriminate. split; reflexivity.
Qed.

Lemma scanAgain_resumes_scanning_witness :
  offered scanned PressScanAgain = true
  /\ render (next scanned PressScanAgain)
     = CameraView (mkCamera picture back true None true).
Proof.
  apply (scanAgain_resumes_scanning scanned).
  - apply reach_step; [apply reach_mounted | reflexivity].
  - reflexivity.
Defined.

(** X11.  A settled picture changes [uri] and nothing else, and the picture
    view follows exactly when the camera resolved to a picture with a
    non-empty [uri]: a promise that settles with nothing, or with an empty
    [uri], takes a picture that was on screen away. *)
Theorem settled_picture_is_shown (s : AppState)
    (photo : option CameraCapturedPicture) :
  next s (PictureSettled photo)
  = mkState (option_map photo_uri photo) (mode s) (facing s) (recording s)
            (isBarcodeScanning s) (barcodeData s) (scanningPaused s)
  /\ (screen (next s (PictureSettled photo)) = PhotoPreview
      <-> exists p, photo = Some p /\ photo_uri p <> EmptyString).
Proof.
  split; [reflexivity|].
  unfold screen, render. split_state s. run_handlers.
  destruct (truthy (option_map photo_uri photo)) eqn:Ht.
  - split; [intros _|reflexivity].
    apply truthy_spec in Ht. destruct Ht as [x [Hx Hne]].
    destruct photo as [p|]; [|discriminate].
    exists p. split; [reflexivity|]. simpl in Hx. congruence.
  - split.
    + destruct barcode; discriminate.
    + intros [p [-> Hne]]. exfalso.
      assert (truthy (Some (photo_uri p)) = true) as Hyes
        by (apply truthy_spec; eauto).
      simpl in Ht, Hyes. congruence.
Qed.

Lemma settled_picture_is_shown_witness :
  screen (next picture_over_barcode
            (PictureSettled (Some (mkPhoto "file:///other.jpg"))))
  = PhotoPreview.
Proof.
  apply (proj2 (settled_picture_is_shown picture_over_barcode
                  (Some (mkPhoto "file:///other.jpg")))).
  exists (mkPhoto "file:///other.jpg"). split; [reflexivity | discriminate].
Defined.

(** ** The callback the camera holds *)

(** X12.  A decode callback that a render has bound (line 139) belongs to a
    closure with [scanningPaused] false, so its test of line 83 never stops
    it: on whatever state it is called, it logs, stores the result and sets
    the pause, and called twice it leaves the second result. *)
Theorem bound_callback_always_stores (c t : AppState)
    (r r2 : BarcodeScanningResult) :
  delivered c (BarcodeScanned r) = true ->
  handleBarCodeScanned c r t
  = (mkState (uri t) (mode t) (facing t) (recording t)
             (isBarcodeScanning t) (Some r) true, [log_barcode r])
  /\ scannedTwice c r r2 t
     = (mkState (uri t) (mode t) (facing t) (recording t)
                (isBarcodeScanning t) (Some r2) true,
        [log_barcode r; log_barcode r2]).
Proof.
  intros Hbound. apply andb_prop in Hbound. destruct Hbound as [_ Hp].
  apply negb_true_iff in Hp.
  unfold scannedTwice, handleBarCodeScanned. rewrite Hp.
  split; reflexivity.
Qed.

Lemma bound_callback_always_stores_witness :
  handleBarCodeScanned mounted qr_hello (next mounted (BarcodeScanned isbn_book))
  = (mkState None picture back false true (Some qr_hello) true,
     [log_barcode qr_hello]).
Proof.
  apply (proj1 (bound_callback_always_stores mounted
                  (next mounted (BarcodeScanned isbn_book))
                  qr_hello isbn_book eq_refl)).
Defined.

(** ** The label and the length of the data *)

Lemma substring3_idem d : substring 0 3 (substring 0 3 d) = substring 0 3 d.
Proof. destruct d as [|a [|b [|c [|c' d]]]]; reflexivity. Qed.

(** A test for a prefix of three characters reads three characters. *)
Lemma prefix3_reads_three p d :
  String.length p = 3 -> prefix p d = prefix p (substring 0 3 d).
Proof.
  intros Hp. apply eq_true_iff_eq.
  rewrite !prefix_correct, Hp, substring3_idem. reflexivity.
Qed.

Lemma prefix3_of_short p d :
  String.length p = 3 -> String.length d < 3 -> prefix p d = false.
Proof.
  intros Hp Hlen. destruct (prefix p d) eqn:E; [|reflexivity].
  apply prefix_correct in E. rewrite Hp in E. exfalso.
  destruct d as [|a [|b [|c d]]]; simpl in *;
    try (subst p; discriminate Hp).
  do 3 apply le_S_n in Hlen. inversion Hlen.
Qed.

(** X13.  The label depends on the type and on the first three characters
    of the data only, and data of fewer than three characters is never
    relabelled: no length and no check digit is looked at. *)
Theorem labelFor_reads_three_characters (t d : string) :
  (String.length d < 3 -> labelFor t d = t)
  /\ labelFor t d = labelFor t (substring 0 3 d).
Proof.
  unfold labelFor. split.
  - intros Hlen.
    rewrite !(fun p Hp => prefix3_of_short p d Hp Hlen) by reflexivity.
    rewrite andb_false_r. reflexivity.
  - rewrite <- !prefix3_reads_three by reflexivity. reflexivity.
Qed.

Lemma labelFor_reads_three_characters_witness : labelFor "ean13" "97" = "ean13".
Proof.
  apply (proj1 (labelFor_reads_three_characters "ean13" "97")).
  simpl. apply le_n_S, le_n_S, le_n.
Defined.
